(** * pyprocdev: the /proc/devices tables of [_pyprocdev.py]

    A shallow embedding of [src/pyprocdev/_pyprocdev.py]: the line parser
    [ProcDev._parse_file], the constructor [ProcDev.__init__] and the two
    queries [get_driver] and [get_majors] with the lazily built reverse
    table.  Python dictionaries are finite maps, frozensets are finite sets,
    exceptions are an explicit outcome and the instance is the state that
    the methods thread. *)

From Stdlib Require Import ZArith Ascii String List Bool Lia.
From stdpp Require Import base decidable countable gmap strings list fin_maps.

Open Scope string_scope.
Open Scope Z_scope.

(** ** Interpreter *)

(** The repository pins no interpreter.  Where a builtin behaves differently
    under Python 2 and Python 3 the model takes the version as an argument:
    [Py2] is CPython 2.7, [Py3] is CPython 3.11 or later with its default
    settings.  Earlier releases of Python 3 differ from [Py3] in [int] only:
    no underscores in literals before 3.6, no limit on the number of digits
    before the security releases of 2022. *)
Inductive PyVersion : Type := Py2 | Py3.

(** ** Device types and errors *)

(** Modelled from the spec: the module [_constants] that declares
    [DeviceTypes] is not part of the sources; the spec gives it the three
    members CHARACTER, BLOCK and NOTYPE. *)
Inductive DeviceTypes : Type := CHARACTER | BLOCK | NOTYPE.

#[global] Instance DeviceTypes_eq_dec : EqDecision DeviceTypes.
Proof. solve_decision. Defined.

Definition DeviceTypes_encode (d : DeviceTypes) : nat :=
  match d with CHARACTER => 0%nat | BLOCK => 1%nat | NOTYPE => 2%nat end.

Definition DeviceTypes_decode (n : nat) : option DeviceTypes :=
  match n with
  | O => Some CHARACTER
  | S O => Some BLOCK
  | S (S O) => Some NOTYPE
  | _ => None
  end.

#[global] Instance DeviceTypes_countable : Countable DeviceTypes.
Proof.
  apply (inj_countable DeviceTypes_encode DeviceTypes_decode).
  intros []; reflexivity.
Defined.

(** Modelled from the spec: [_constants] is not part of the sources, so the
    text that ["%s" % parsing] gives for a member is taken to be its name. *)
Definition DeviceTypes_str (d : DeviceTypes) : string :=
  match d with
  | CHARACTER => "CHARACTER"
  | BLOCK => "BLOCK"
  | NOTYPE => "NOTYPE"
  end.

(** The exceptions that the module raises or lets through.  The two
    [ProcDev...] classes come from [_errors] and carry the arguments the
    source passes to them; the others are the interpreter's own. *)
Inductive exn : Type :=
| ProcDevParsingError (message : string)
| ProcDevValueError (value : DeviceTypes) (param : string)
| ValueError
| TypeError
| NameError.

#[global] Instance exn_eq_dec : EqDecision exn.
Proof. solve_decision. Defined.

(** ** The instance *)

(** [_TablePairs]: [left] maps a major number to its driver, [right] is
    [None] until the reverse table has been assigned. *)
Record _TablePairs : Type := mk_TablePairs {
  left : gmap Z string;
  right : option (gmap string (gset Z))
}.

(** The state the methods run in: the attribute [_tables] of the instance,
    and a counter of the calls of [_build_reverse_table], which is
    instrumentation only (no statement of the source reads it). *)
Record ProcDev : Type := mk_ProcDev {
  _tables : gmap DeviceTypes _TablePairs;
  build_calls : nat
}.

(** ** Computations that may raise *)

Inductive outcome (A : Type) : Type :=
| Return (a : A)
| Raise (e : exn).
Arguments Return {A} a.
Arguments Raise {A} e.

Definition M (A : Type) : Type := ProcDev -> outcome A * ProcDev.

Definition ret {A} (a : A) : M A := fun s => (Return a, s).
Definition raise {A} (e : exn) : M A := fun s => (Raise e, s).
Definition bind {A B} (m : M A) (k : A -> M B) : M B :=
  fun s => match m s with
           | (Return a, s') => k a s'
           | (Raise e, s') => (Raise e, s')
           end.
Definition get_self : M ProcDev := fun s => (Return s, s).
Definition put_self (s' : ProcDev) : M unit := fun _ => (Return tt, s').

Declare Scope py_scope.
Delimit Scope py_scope with py.
Notation "'let!' x ':=' m 'in' k" := (bind m (fun x => k))
  (at level 10, x name, m at level 100, k at level 200) : py_scope.
Open Scope py_scope.

(** [try: m  except KeyError/ValueError: raise e] for a lookup or an
    unpacking that either yields a value or fails. *)
Definition or_raise {A} (o : option A) (e : exn) : M A :=
  match o with
  | Some a => ret a
  | None => raise e
  end.

(** ** Method calls *)

(** [obj.f(a1, ..., an)] passes [obj] as the first positional argument, so
    a [def] with [p] parameters accepts the call only when [p = n + 1];
    otherwise the call raises [TypeError] before the body starts.  The
    bodies below read the name [self] in their first statement, and the
    module has no global of that name: when the first parameter of the
    [def] is not [self], the body raises [NameError] there. *)
Definition call_method {A} (params : list string) (nargs : nat) (body : M A) : M A :=
  if negb (Nat.eqb (length params) (S nargs)) then raise TypeError
  else match params with
       | "self" :: _ => body
       | _ => raise NameError
       end.

(** ** Text builtins *)

Definition ascii_code (c : ascii) : nat := nat_of_ascii c.

(** [str.isspace] on one character (code points below 256).  Python 2
    strings know the six ASCII blanks; Python 3 also counts the separators
    28 to 31, NEL (133) and the no-break space (160). *)
Definition isspace (v : PyVersion) (c : ascii) : bool :=
  let n := ascii_code c in
  ((Nat.leb 9 n && Nat.leb n 13) || Nat.eqb n 32)
  || match v with
     | Py2 => false
     | Py3 => (Nat.leb 28 n && Nat.leb n 31) || Nat.eqb n 133 || Nat.eqb n 160
     end.

Definition is_empty_str (s : string) : bool :=
  match s with EmptyString => true | String _ _ => false end.

(** [s.rstrip()] *)
Fixpoint rstrip (v : PyVersion) (s : string) : string :=
  match s with
  | EmptyString => EmptyString
  | String c s' =>
      let r := rstrip v s' in
      if isspace v c && is_empty_str r then EmptyString else String c r
  end.

(** [s.split()]: the maximal runs of non-blank characters, in order;
    [cur] is the run being read. *)
Fixpoint split_from (v : PyVersion) (cur : string) (s : string) : list string :=
  match s with
  | EmptyString => if is_empty_str cur then [] else [cur]
  | String c s' =>
      if isspace v c
      then (if is_empty_str cur then split_from v EmptyString s'
            else cur :: split_from v EmptyString s')
      else split_from v (cur ++ String c EmptyString) s'
  end.

Definition split (v : PyVersion) (s : string) : list string :=
  split_from v EmptyString s.

(** [(major, device) = tokens]: unpacking succeeds on exactly two items. *)
Definition unpack2 (tokens : list string) : option (string * string) :=
  match tokens with
  | [major; device] => Some (major, device)
  | _ => None
  end.

Definition digit_value (c : ascii) : option Z :=
  let n := ascii_code c in
  if Nat.leb 48 n && Nat.leb n 57 then Some (Z.of_nat n - 48) else None.

Definition is_underscore (c : ascii) : bool := Nat.eqb (ascii_code c) 95.

(** The digits of a literal, most significant first.  [acc] is the value
    read so far and [after_digit] says that the previous character was a
    digit.  Python 3 accepts one underscore between two digits. *)
Fixpoint int_digits (v : PyVersion) (acc : Z) (after_digit : bool) (s : string)
  : option Z :=
  match s with
  | EmptyString => if after_digit then Some acc else None
  | String c s' =>
      match digit_value c with
      | Some d => int_digits v (10 * acc + d) true s'
      | None =>
          match v with
          | Py3 => if is_underscore c && after_digit
                   then (match s' with
                         | EmptyString => None
                         | String c' _ =>
                             match digit_value c' with
                             | Some _ => int_digits v acc false s'
                             | None => None
                             end
                         end)
                   else None
          | Py2 => None
          end
      end
  end.

(** The literal that [int] reads in base 10 from a token without blanks: an
    optional sign and digits. *)
Definition int_literal (v : PyVersion) (token : string) : option Z :=
  match token with
  | String c rest =>
      if Nat.eqb (ascii_code c) 45 then Z.opp <$> int_digits v 0 false rest
      else if Nat.eqb (ascii_code c) 43 then int_digits v 0 false rest
      else int_digits v 0 false token
  | EmptyString => None
  end.

(** The number of digit characters of a token; the sign and the underscores
    do not count, leading zeros do. *)
Fixpoint digit_count (s : string) : nat :=
  match s with
  | EmptyString => O
  | String c s' =>
      match digit_value c with
      | Some _ => S (digit_count s')
      | None => digit_count s'
      end
  end.

(** [sys.get_int_max_str_digits()] as Python 3 starts with. *)
Definition max_str_digits : nat := 4300.

(** Python 3 refuses to convert a literal of more digits than the limit;
    Python 2 has no limit. *)
Definition exceeds_limit (v : PyVersion) (token : string) : bool :=
  match v with
  | Py2 => false
  | Py3 => Nat.ltb max_str_digits (digit_count token)
  end.

(** [int(token)] in base 10 on a token without blanks; [None] stands for
    the [ValueError], of an invalid literal or of a literal over the
    limit. *)
Definition int (v : PyVersion) (token : string) : option Z :=
  if exceeds_limit v token then None else int_literal v token.

(** ** Parsing *)

Definition parsing_error_format (line : string) : exn :=
  ProcDevParsingError ("Unexpected format for line " ++ line).

Definition parsing_error_section (parsing : DeviceTypes) : exn :=
  ProcDevParsingError
    ("Parsing data for unknown device type " ++ DeviceTypes_str parsing ++ ".").

(** [self._tables[key]]: [None] stands for the [KeyError]. *)
Definition tables_lookup (key : DeviceTypes) : M (option _TablePairs) :=
  let! self := get_self in ret (_tables self !! key).

(** [table[k] = device], where [table] is the object held in
    [self._tables[key].left]: the store goes to the instance. *)
Definition left_setitem (key : DeviceTypes) (k : Z) (device : string) : M unit :=
  let! self := get_self in
  put_self
    (mk_ProcDev
       (alter (fun tp => mk_TablePairs (<[k := device]> (left tp)) (right tp))
              key (_tables self))
       (build_calls self)).

(** One turn of the loop of [_parse_file] on [line]; the value returned is
    [parsing] as the turn leaves it. *)
Definition parse_line (v : PyVersion) (parsing : DeviceTypes) (line : string)
  : M DeviceTypes :=
  let line := rstrip v line in
  if String.eqb line "" then ret NOTYPE
  else if String.eqb line "Character devices:" then ret CHARACTER
  else if String.eqb line "Block devices:" then ret BLOCK
  else
    let! tokens :=
      or_raise (unpack2 (split v line)) (parsing_error_format line) in
    let major := tokens.1 in
    let device := tokens.2 in
    let! entry := tables_lookup parsing in
    let! table_pair := or_raise entry (parsing_error_section parsing) in
    let! key := or_raise (int v major) ValueError in
    let! _ := left_setitem parsing key device in
    ret parsing.

(** The loop over the lines that the stream yields. *)
Fixpoint parse_lines (v : PyVersion) (parsing : DeviceTypes) (lines : list string)
  : M DeviceTypes :=
  match lines with
  | [] => ret parsing
  | line :: rest =>
      let! parsing' := parse_line v parsing line in
      parse_lines v parsing' rest
  end.

Definition _parse_file_params : list string := ["self"; "filepath"].

(** [_parse_file]; [lines] is what iterating the opened file yields. *)
Definition _parse_file (v : PyVersion) (lines : list string) : M unit :=
  let! _ := parse_lines v NOTYPE lines in ret tt.

(** The instance as [__init__] has it before it calls [_parse_file]. *)
Definition fresh_instance : ProcDev :=
  mk_ProcDev
    (<[CHARACTER := mk_TablePairs ∅ None]>
       (<[BLOCK := mk_TablePairs ∅ None]> ∅))
    0.

(** [ProcDev(filepath)]: the caller gets the instance when [__init__]
    returns, and the exception when it raises.  [lines] is what iterating
    the opened file yields; a failure of [open] or of reading the file is
    not modelled. *)
Definition ProcDev_new (v : PyVersion) (lines : list string) : exn + ProcDev :=
  match call_method _parse_file_params 1 (_parse_file v lines) fresh_instance with
  | (Return _, self) => inr self
  | (Raise e, _) => inl e
  end.

(** ** Queries *)

Definition get_driver_params : list string := ["device_type"; "major_number"].
Definition _build_reverse_table_params : list string := ["self"; "table"].
Definition get_majors_params : list string := ["device_type"; "driver"].

(** The statements of [get_driver], run with [self] standing for the
    instance; [None] is Python's [None]. *)
Definition get_driver_body (device_type : DeviceTypes) (major_number : Z)
  : M (option string) :=
  let! entry := tables_lookup device_type in
  let! table := or_raise entry (ProcDevValueError device_type "device_type") in
  ret (left table !! major_number).

(** The call [instance.get_driver(device_type, major_number)]. *)
Definition get_driver (device_type : DeviceTypes) (major_number : Z)
  : M (option string) :=
  call_method get_driver_params 2 (get_driver_body device_type major_number).

(** [sorted(iterable, f)] with [f] a function of one argument.  Python 3
    takes no second positional argument.  In Python 2 that position is
    [cmp], which is called with two items as soon as there are two to
    compare. *)
Definition sorted_positional {A K} (v : PyVersion) (iterable : list A) (f : A -> K)
  : option (list A) :=
  match v with
  | Py3 => None
  | Py2 => match iterable with
           | [] | [_] => Some iterable
           | _ :: _ :: _ => None
           end
  end.

(** [itertools.groupby(items, key)]: the runs of adjacent items with equal
    keys, each with its key. *)
Fixpoint groupby {A K} `{EqDecision K} (key : A -> K) (items : list A)
  : list (K * list A) :=
  match items with
  | [] => []
  | x :: rest =>
      match groupby key rest with
      | (k, run) :: groups =>
          if decide (key x = k) then (k, x :: run) :: groups
          else (key x, [x]) :: (k, run) :: groups
      | [] => [(key x, [x])]
      end
  end.

(** [dict(pairs)]: a later pair replaces an earlier one with its key. *)
Definition dict_of_pairs {K V} `{Countable K} (pairs : list (K * V)) : gmap K V :=
  fold_left (fun m kv => <[kv.1 := kv.2]> m) pairs ∅.

Definition count_build : M unit :=
  let! self := get_self in
  put_self (mk_ProcDev (_tables self) (S (build_calls self))).

Definition _build_reverse_table_body (v : PyVersion) (table : gmap Z string)
  : M (gmap string (gset Z)) :=
  let! _ := count_build in
  let! items := or_raise (sorted_positional v (map_to_list table) snd) TypeError in
  let groups := groupby snd items in
  ret (dict_of_pairs
         (map (fun g : string * list (Z * string) =>
                 (g.1, list_to_set (map fst g.2) : gset Z)) groups)).

(** The call [self._build_reverse_table(table)]. *)
Definition _build_reverse_table (v : PyVersion) (table : gmap Z string)
  : M (gmap string (gset Z)) :=
  call_method _build_reverse_table_params 1 (_build_reverse_table_body v table).

(** Truth value of [table_pair.right]: [None] and the empty dictionary are
    false. *)
Definition truthy (r : option (gmap string (gset Z))) : bool :=
  match r with
  | None => false
  | Some d => negb (bool_decide (d = ∅))
  end.

(** [table_pair.right = value] on the object held in [self._tables[key]]. *)
Definition right_setattr (key : DeviceTypes) (value : gmap string (gset Z)) : M unit :=
  let! self := get_self in
  put_self
    (mk_ProcDev
       (alter (fun tp => mk_TablePairs (left tp) (Some value)) key (_tables self))
       (build_calls self)).

(** The statements of [get_majors], run with [self] standing for the
    instance. *)
Definition get_majors_body (v : PyVersion) (device_type : DeviceTypes) (driver : string)
  : M (option (gset Z)) :=
  let! entry := tables_lookup device_type in
  let! table_pair := or_raise entry (ProcDevValueError device_type "device_type") in
  let! value :=
    match right table_pair with
    | Some d => if truthy (Some d) then ret d
                else _build_reverse_table v (left table_pair)
    | None => _build_reverse_table v (left table_pair)
    end in
  let! _ := right_setattr device_type value in
  ret (value !! driver).

(** The call [instance.get_majors(device_type, driver)]. *)
Definition get_majors (v : PyVersion) (device_type : DeviceTypes) (driver : string)
  : M (option (gset Z)) :=
  call_method get_majors_params 2 (get_majors_body v device_type driver).

Open Scope list_scope.

(** ** Shapes of a line, as the loop tells them apart *)

Definition is_blank (v : PyVersion) (line : string) : bool :=
  String.eqb (rstrip v line) "".

Definition is_header (v : PyVersion) (line : string) : bool :=
  String.eqb (rstrip v line) "Character devices:"
  || String.eqb (rstrip v line) "Block devices:".

(** The tokens of a line that is neither blank nor a header. *)
Definition tokens (v : PyVersion) (line : string) : list string :=
  split v (rstrip v line).

(** The invariant of [_tables]: the two keys that [__init__] stores, and no
    other. *)
Definition two_tables (s : ProcDev) : Prop :=
  is_Some (_tables s !! CHARACTER) ∧ is_Some (_tables s !! BLOCK)
  ∧ _tables s !! NOTYPE = None.

(** The instance after the store [table[k] = device] in section [p]. *)
Definition stored (p : DeviceTypes) (k : Z) (device : string) (s : ProcDev) : ProcDev :=
  mk_ProcDev
    (alter (fun tp => mk_TablePairs (<[k := device]> (left tp)) (right tp))
           p (_tables s))
    (build_calls s).

(** What one turn of the loop can do, by cases. *)
Inductive turn (v : PyVersion) (p : DeviceTypes) (line : string) (s : ProcDev)
  : outcome DeviceTypes → ProcDev → Prop :=
| turn_blank : is_blank v line = true → turn v p line s (Return NOTYPE) s
| turn_header p' : is_header v line = true → p' ≠ NOTYPE →
    turn v p line s (Return p') s
| turn_format : is_blank v line = false → is_header v line = false →
    length (tokens v line) ≠ 2%nat →
    turn v p line s (Raise (parsing_error_format (rstrip v line))) s
| turn_section : is_blank v line = false → is_header v line = false →
    length (tokens v line) = 2%nat → _tables s !! p = None →
    turn v p line s (Raise (parsing_error_section p)) s
| turn_int major device : is_blank v line = false → is_header v line = false →
    tokens v line = [major; device] → is_Some (_tables s !! p) →
    int v major = None →
    turn v p line s (Raise ValueError) s
| turn_store major device k : is_blank v line = false → is_header v line = false →
    tokens v line = [major; device] → is_Some (_tables s !! p) →
    int v major = Some k →
    turn v p line s (Return p) (stored p k device s).

(** Every entry of a forward table of [s] was stored for a row of [lines]:
    a line that is neither blank nor a header, whose two tokens are the
    text that [int] read the key from and the driver. *)
Definition entries_from (v : PyVersion) (lines : list string) (s : ProcDev) : Prop :=
  ∀ dt tp k d,
    _tables s !! dt = Some tp → left tp !! k = Some d →
    ∃ line major,
      line ∈ lines ∧ is_blank v line = false ∧ is_header v line = false
      ∧ tokens v line = [major; d] ∧ int v major = Some k.

(** Every turn of the loop over [lines], started in section [p0] on [s0],
    returned. *)
Definition every_turn_returns (v : PyVersion) (p0 : DeviceTypes) (s0 : ProcDev)
  (lines : list string) : Prop :=
  ∀ pre line post,
    lines = pre ++ line :: post →
    ∃ p s p' s',
      parse_lines v p0 pre s0 = (Return p, s)
      ∧ parse_line v p line s = (Return p', s').

(** ** The scenario of the spec *)

Definition nl : string := String (ascii_of_nat 10) EmptyString.

(** The lines that iterating the scenario file yields, each with its
    newline. *)
Definition scenario : list string :=
  [ ("Character devices:" ++ nl)%string;
    ("1 mem" ++ nl)%string;
    ("4 /dev/vc/0" ++ nl)%string;
    ("4 tty" ++ nl)%string;
    nl;
    ("Block devices:" ++ nl)%string;
    ("7 loop" ++ nl)%string ].

(** The instance that the parse of [scenario] leaves. *)
Definition scenario_instance : ProcDev :=
  stored BLOCK 7 "loop"
    (stored CHARACTER 4 "tty"
       (stored CHARACTER 4 "/dev/vc/0"
          (stored CHARACTER 1 "mem" fresh_instance))).

(** The instance that the parse of the two lines [Character devices:] and
    [1 mem] leaves: one character driver, no block driver. *)
Definition one_driver_lines : list string :=
  [ ("Character devices:" ++ nl)%string; ("1 mem" ++ nl)%string ].

Definition one_driver_instance : ProcDev :=
  stored CHARACTER 1 "mem" fresh_instance.

(** The instance with one call of [_build_reverse_table] more on its
    counter. *)
Definition counted (s : ProcDev) : ProcDev :=
  mk_ProcDev (_tables s) (S (build_calls s)).

(** ** The section a line leaves the loop in *)

(** [parsing] after the turn on [line], read off the three tests that open
    the loop body: a blank line, either header, or any other line, which
    leaves [parsing] as it was. *)
Definition section_of (v : PyVersion) (parsing : DeviceTypes) (line : string)
  : DeviceTypes :=
  let line := rstrip v line in
  if String.eqb line "" then NOTYPE
  else if String.eqb line "Character devices:" then CHARACTER
  else if String.eqb line "Block devices:" then BLOCK
  else parsing.

(** [parsing] after the turns on [lines], started at [parsing]. *)
Definition section_after (v : PyVersion) (parsing : DeviceTypes) (lines : list string)
  : DeviceTypes :=
  fold_left (section_of v) lines parsing.

(** The lines on which a turn started in section [parsing] returns: blank
    lines, headers, and inside a section the rows of two tokens whose first
    [int] reads. *)
Definition line_ok (v : PyVersion) (parsing : DeviceTypes) (line : string) : bool :=
  is_blank v line || is_header v line
  || (negb (bool_decide (parsing = NOTYPE))
      && match tokens v line with
         | [major; _] => match int v major with Some _ => true | None => false end
         | _ => false
         end).

Fixpoint lines_ok (v : PyVersion) (parsing : DeviceTypes) (lines : list string) : bool :=
  match lines with
  | [] => true
  | line :: rest => line_ok v parsing line && lines_ok v (section_of v parsing line) rest
  end.

(** The reverse slots and the counter of an instance are those of a fresh
    one. *)
Definition unbuilt (s : ProcDev) : Prop :=
  (∀ dt tp, _tables s !! dt = Some tp → right tp = None)
  ∧ build_calls s = 0%nat.

(** The scenario instance after the statements of [get_majors] ran once for
    BLOCK under Python 2, and the pair it then holds for BLOCK. *)
Definition built_instance : ProcDev :=
  (get_majors_body Py2 BLOCK "loop" scenario_instance).2.

Definition built_block_pair : _TablePairs :=
  mk_TablePairs {[ 7 := "loop" ]} (Some {[ "loop" := {[ 7 ]} ]}).

(** The exception that the turn on [line] raises in section [parsing] when
    [line] is none of the lines of [line_ok]: by the order of the
    statements, the format error for a line of other than two tokens, then
    the section error outside a section, then the [ValueError] of [int]. *)
Definition line_error (v : PyVersion) (parsing : DeviceTypes) (line : string) : exn :=
  match tokens v line with
  | [_; _] =>
      if decide (parsing = NOTYPE) then parsing_error_section NOTYPE
      else ValueError
  | _ => parsing_error_format (rstrip v line)
  end.

(** The characters of a string. *)
Definition chars (s : string) : list ascii := list_ascii_of_string s.

(** * Properties of the parser *)

Section Parser.

Variable v : PyVersion.

Lemma unpack2_None (l : list string) : unpack2 l = None ↔ length l ≠ 2%nat.
Proof.
  destruct l as [|a [|b [|c l]]]; simpl; split; intros H; try done; lia.
Qed.

Lemma unpack2_Some (l : list string) :
  length l = 2%nat → ∃ major device, l = [major; device] ∧ unpack2 l = Some (major, device).
Proof.
  destruct l as [|a [|b [|c l]]]; simpl; intros H; try lia. by exists a, b.
Qed.

Lemma call_method_self {A} (rest : list string) (n : nat) (body : M A) :
  length rest = n → call_method ("self" :: rest) n body = body.
Proof.
  intros <-. unfold call_method. simpl. by rewrite Nat.eqb_refl.
Qed.

Lemma parse_line_blank p line s :
  is_blank v line = true → parse_line v p line s = (Return NOTYPE, s).
Proof. unfold is_blank, parse_line. by intros ->. Qed.

Lemma parse_line_header p line s :
  is_header v line = true →
  ∃ p', p' ≠ NOTYPE ∧ parse_line v p line s = (Return p', s).
Proof.
  unfold is_header, parse_line. intros H.
  destruct (String.eqb (rstrip v line) "") eqn:Hb.
  - apply String.eqb_eq in Hb. rewrite Hb in H. discriminate.
  - destruct (String.eqb (rstrip v line) "Character devices:") eqn:Hc.
    + by exists CHARACTER.
    + simpl in H. rewrite H. by exists BLOCK.
  Qed.

(** A line that is neither blank nor a header reaches the unpacking. *)
Lemma parse_line_row p line s :
  is_blank v line = false → is_header v line = false →
  parse_line v p line s =
    (let! toks := or_raise (unpack2 (tokens v line))
                           (parsing_error_format (rstrip v line)) in
     let! entry := tables_lookup p in
     let! table_pair := or_raise entry (parsing_error_section p) in
     let! key := or_raise (int v toks.1) ValueError in
     let! _ := left_setitem p key toks.2 in
     ret p) s.
Proof.
  unfold is_blank, is_header, parse_line, tokens. intros -> H.
  apply orb_false_iff in H as [-> ->]. reflexivity.
Qed.

Lemma parse_line_bad_format p line s :
  is_blank v line = false → is_header v line = false →
  length (tokens v line) ≠ 2%nat →
  parse_line v p line s = (Raise (parsing_error_format (rstrip v line)), s).
Proof.
  intros Hb Hh Hl. rewrite parse_line_row by done.
  apply unpack2_None in Hl. unfold bind. by rewrite Hl.
Qed.

Lemma parse_line_unknown_section p line s :
  is_blank v line = false → is_header v line = false →
  length (tokens v line) = 2%nat →
  _tables s !! p = None →
  parse_line v p line s = (Raise (parsing_error_section p), s).
Proof.
  intros Hb Hh Hl Hp. rewrite parse_line_row by done.
  destruct (unpack2_Some _ Hl) as (major & device & _ & ->).
  unfold bind, tables_lookup, get_self, bind, ret. simpl. by rewrite Hp.
Qed.

Lemma parse_line_bad_int p line s major device :
  is_blank v line = false → is_header v line = false →
  tokens v line = [major; device] →
  is_Some (_tables s !! p) →
  int v major = None →
  parse_line v p line s = (Raise ValueError, s).
Proof.
  intros Hb Hh Hl [tp Hp] Hi. rewrite parse_line_row by done. rewrite Hl.
  unfold bind, tables_lookup, get_self, bind, ret. simpl. rewrite Hp. simpl.
  by rewrite Hi.
Qed.

Lemma parse_line_store p line s major device k :
  is_blank v line = false → is_header v line = false →
  tokens v line = [major; device] →
  is_Some (_tables s !! p) →
  int v major = Some k →
  parse_line v p line s = (Return p, stored p k device s).
Proof.
  intros Hb Hh Hl [tp Hp] Hi. rewrite parse_line_row by done. rewrite Hl.
  unfold bind, tables_lookup, get_self, bind, ret. simpl. rewrite Hp. simpl.
  by rewrite Hi.
Qed.

Lemma parse_line_turn p line s :
  turn v p line s (parse_line v p line s).1 (parse_line v p line s).2.
Proof.
  destruct (is_blank v line) eqn:Hb.
  { rewrite parse_line_blank by done. by constructor. }
  destruct (is_header v line) eqn:Hh.
  { destruct (parse_line_header p line s Hh) as (p' & Hp' & ->).
    by constructor. }
  destruct (decide (length (tokens v line) = 2%nat)) as [Hl|Hl].
  2:{ rewrite parse_line_bad_format by done. by constructor. }
  destruct (_tables s !! p) as [tp|] eqn:Hp.
  2:{ rewrite parse_line_unknown_section by done. by constructor. }
  destruct (unpack2_Some _ Hl) as (major & device & Ht & _).
  destruct (int v major) as [k|] eqn:Hi.
  - erewrite parse_line_store by eauto. econstructor; eauto.
  - erewrite parse_line_bad_int by eauto. econstructor; eauto.
Qed.

Lemma stored_two_tables p k device s : two_tables s → two_tables (stored p k device s).
Proof.
  unfold two_tables, stored. simpl. intros (Hc & Hb & Hn).
  rewrite !lookup_alter_is_Some, lookup_alter_None. done.
Qed.

Lemma turn_two_tables p line s o s' :
  turn v p line s o s' → two_tables s → two_tables s'.
Proof. destruct 1; auto using stored_two_tables. Qed.

Lemma fresh_two_tables : two_tables fresh_instance.
Proof. unfold two_tables, fresh_instance. simpl. by simplify_map_eq. Qed.

Lemma parse_lines_app p pre post s :
  parse_lines v p (pre ++ post) s =
    match parse_lines v p pre s with
    | (Return p', s') => parse_lines v p' post s'
    | (Raise e, s') => (Raise e, s')
    end.
Proof.
  revert p s. induction pre as [|line pre IH]; intros p s; simpl; [done|].
  unfold bind. destruct (parse_line v p line s) as [[p'|e] s']; [apply IH|done].
Qed.

Lemma parse_lines_two_tables p lines s o s' :
  parse_lines v p lines s = (o, s') → two_tables s → two_tables s'.
Proof.
  revert p s. induction lines as [|line lines IH]; intros p s; simpl.
  - unfold ret. by intros [= _ <-].
  - unfold bind. pose proof (parse_line_turn p line s) as Ht.
    destruct (parse_line v p line s) as [[p'|e] s1]; simpl in Ht.
    + intros H Hs. eapply IH; eauto using turn_two_tables.
    + intros [= _ <-]. eauto using turn_two_tables.
Qed.

Lemma ProcDev_new_parse_lines lines :
  ProcDev_new v lines =
    match parse_lines v NOTYPE lines fresh_instance with
    | (Return _, self) => inr self
    | (Raise e, _) => inl e
    end.
Proof.
  unfold ProcDev_new, _parse_file_params. rewrite call_method_self by done.
  unfold _parse_file, bind.
  by destruct (parse_lines v NOTYPE lines fresh_instance) as [[p|e] s].
Qed.

(** The first turn that raises decides what the caller gets. *)
Lemma ProcDev_new_first_raise pre line post p s e s' :
  parse_lines v NOTYPE pre fresh_instance = (Return p, s) →
  parse_line v p line s = (Raise e, s') →
  ProcDev_new v (pre ++ line :: post) = inl e.
Proof.
  intros Hpre Hline. rewrite ProcDev_new_parse_lines, parse_lines_app, Hpre.
  simpl. unfold bind. by rewrite Hline.
Qed.

Lemma parse_lines_cases p0 s0 lines :
  (∃ p s, parse_lines v p0 lines s0 = (Return p, s)
          ∧ every_turn_returns v p0 s0 lines)
  ∨ (∃ e pre line post p s s',
       lines = pre ++ line :: post
       ∧ parse_lines v p0 pre s0 = (Return p, s)
       ∧ parse_line v p line s = (Raise e, s')
       ∧ parse_lines v p0 lines s0 = (Raise e, s')).
Proof.
  revert p0 s0. induction lines as [|x l IH]; intros p0 s0.
  - left. exists p0, s0. split; [done|].
    intros pre line post H. by destruct pre.
  - simpl. unfold bind. destruct (parse_line v p0 x s0) as [[p1|e] s1] eqn:Hx.
    + destruct (IH p1 s1) as [(p & s & Hok & Hall)|(e & pre & line & post & p & s & s' & -> & Hpre & Hline & Hres)].
      * left. exists p, s. split; [done|].
        intros pre line post H. destruct pre as [|y pre]; simplify_eq/=.
        { by exists p0, s0, p1, s1. }
        destruct (Hall pre line post eq_refl) as (q & t & q' & t' & Hq & Hl).
        exists q, t, q', t'. unfold bind. by rewrite Hx.
      * right. exists e, (x :: pre), line, post, p, s, s'.
        simpl. unfold bind. by rewrite Hx.
    + right. by exists e, [], x, l, p0, s0, s1.
Qed.

Lemma stored_lookup p k device s dt tp :
  _tables (stored p k device s) !! dt = Some tp →
  ∃ tp0, _tables s !! dt = Some tp0 ∧ right tp = right tp0
         ∧ left tp = if decide (p = dt) then <[k := device]> (left tp0) else left tp0.
Proof.
  unfold stored. simpl. rewrite lookup_alter.
  destruct (decide (p = dt)) as [<-|Hd].
  - destruct (_tables s !! p) as [tp0|] eqn:E; simpl; intros Htp; [|done].
    injection Htp as <-. by exists tp0.
  - intros Htp. by exists tp.
Qed.

(** A store replaces what the table held at that key. *)
Lemma stored_last_wins p k device s :
  is_Some (_tables s !! p) →
  ∃ tp, _tables (stored p k device s) !! p = Some tp ∧ left tp !! k = Some device.
Proof.
  intros [tp0 H]. unfold stored. simpl. rewrite lookup_alter_eq, H. simpl.
  eexists. split; [done|]. simpl. by rewrite lookup_insert_eq.
Qed.

Lemma entries_from_mono seen seen' s :
  seen ⊆ seen' → entries_from v seen s → entries_from v seen' s.
Proof.
  intros Hsub H dt tp k d Hdt Hk.
  destruct (H dt tp k d Hdt Hk) as (line & major & Hin & Hrest).
  exists line, major. split; [by apply Hsub|done].
Qed.

Lemma turn_entries_from seen p line s p' s' :
  turn v p line s (Return p') s' →
  entries_from v seen s → entries_from v (seen ++ [line]) s'.
Proof.
  intros Ht Hs.
  assert (seen ⊆ seen ++ [line]) as Hsub by set_solver.
  inversion Ht; subst; try by eapply entries_from_mono.
  intros dt tp k' d Hdt Hk.
  destruct (stored_lookup _ _ _ _ _ _ Hdt) as (tp0 & Htp0 & _ & Hleft).
  pose proof (entries_from_mono seen _ s Hsub Hs dt tp0 k' d Htp0) as Hold.
  rewrite Hleft in Hk. destruct (decide (p' = dt)) as [Hd|Hd]; [|by apply Hold].
  destruct (decide (k = k')) as [<-|Hne].
  - rewrite lookup_insert_eq in Hk. injection Hk as <-.
    exists line, major. split; [set_solver|done].
  - rewrite lookup_insert_ne in Hk by done. by apply Hold.
Qed.

Lemma parse_lines_entries_from seen p lines s p' s' :
  parse_lines v p lines s = (Return p', s') →
  entries_from v seen s → entries_from v (seen ++ lines) s'.
Proof.
  revert seen p s. induction lines as [|x l IH]; intros seen p s; simpl.
  - unfold ret. intros [= _ <-]. by rewrite app_nil_r.
  - unfold bind. pose proof (parse_line_turn p x s) as Ht.
    destruct (parse_line v p x s) as [[p1|e] s1]; simpl in Ht; [|done].
    intros H Hs. replace (seen ++ x :: l) with ((seen ++ [x]) ++ l)
      by (by rewrite <- app_assoc).
    eapply IH; eauto using turn_entries_from.
Qed.

Lemma fresh_entries_from : entries_from v [] fresh_instance.
Proof.
  intros dt tp k d Hdt Hk. unfold fresh_instance in Hdt. simpl in Hdt.
  destruct dt; simplify_map_eq; by rewrite lookup_empty in Hk.
Qed.

End Parser.

(** * The claims on the parser *)

(** C3.  A data row (a line that is neither blank nor a header and splits
    into two tokens) met while [parsing] is NOTYPE makes the construction
    fail with the ProcDevParsingError that names the section NOTYPE, when
    the lines before it were parsed: whether no header came before it or a
    blank line reset the section.  In particular a header, then a blank
    line, then a data row fails so. *)
Theorem C3_row_outside_section_raises v pre row post p s :
  parse_lines v NOTYPE pre fresh_instance = (Return p, s) →
  is_blank v row = false → is_header v row = false →
  length (split v (rstrip v row)) = 2%nat →
  (p = NOTYPE →
   ProcDev_new v (pre ++ row :: post)
   = inl (ProcDevParsingError "Parsing data for unknown device type NOTYPE."))
  ∧ (∀ header blank,
       is_header v header = true → is_blank v blank = true →
       ProcDev_new v (pre ++ header :: blank :: row :: post)
       = inl (ProcDevParsingError "Parsing data for unknown device type NOTYPE.")).
Proof.
  intros Hpre Hb Hh Hl.
  assert (two_tables s) as (_ & _ & Hnone)
    by eauto using parse_lines_two_tables, fresh_two_tables.
  split.
  - intros ->. eapply ProcDev_new_first_raise; [done|].
    by apply parse_line_unknown_section.
  - intros header blank Hhd Hbl.
    destruct (parse_line_header v p header s Hhd) as (p' & _ & Hp').
    replace (pre ++ header :: blank :: row :: post)
      with ((pre ++ [header; blank]) ++ row :: post)
      by (by rewrite <- app_assoc).
    eapply (ProcDev_new_first_raise v _ _ _ NOTYPE s).
    + rewrite parse_lines_app, Hpre. simpl. unfold bind.
      rewrite Hp'. by rewrite parse_line_blank.
    + by apply parse_line_unknown_section.
Qed.

Lemma C3_row_outside_section_raises_witness :
  ProcDev_new Py3 (["Character devices:"; ""] ++ "4 tty" :: ["7 loop"])
  = inl (ProcDevParsingError "Parsing data for unknown device type NOTYPE.")
  ∧ ProcDev_new Py3 (["Character devices:"; ""] ++ "Block devices:" :: "  " :: "4 tty" :: ["7 loop"])
    = inl (ProcDevParsingError "Parsing data for unknown device type NOTYPE.").
Proof.
  pose proof (C3_row_outside_section_raises Py3 ["Character devices:"; ""]
                "4 tty" ["7 loop"] NOTYPE fresh_instance
                eq_refl eq_refl eq_refl eq_refl) as [H1 H2].
  split.
  - exact (H1 eq_refl).
  - exact (H2 "Block devices:" "  " eq_refl eq_refl).
Defined.

(** C6.  A line that is neither blank nor a header and does not split into
    exactly two tokens makes the construction fail with the
    ProcDevParsingError whose message carries the line as the loop holds it
    (trailing blanks stripped), in whatever section the lines before it
    left the parser. *)
Theorem C6_wrong_token_count_raises v pre line post p s :
  parse_lines v NOTYPE pre fresh_instance = (Return p, s) →
  is_blank v line = false → is_header v line = false →
  length (split v (rstrip v line)) ≠ 2%nat →
  ProcDev_new v (pre ++ line :: post)
  = inl (ProcDevParsingError ("Unexpected format for line " ++ rstrip v line)%string).
Proof.
  intros Hpre Hb Hh Hl. eapply ProcDev_new_first_raise; [done|].
  by apply parse_line_bad_format.
Qed.

Lemma C6_wrong_token_count_raises_witness :
  ProcDev_new Py2 (["Character devices:"; "1 mem"] ++ "5" :: ["4 tty"])
  = inl (ProcDevParsingError "Unexpected format for line 5").
Proof.
  refine (C6_wrong_token_count_raises Py2 ["Character devices:"; "1 mem"] "5"
            ["4 tty"] CHARACTER (stored CHARACTER 1 "mem" fresh_instance)
            _ eq_refl eq_refl _).
  - vm_compute. reflexivity.
  - vm_compute. lia.
Defined.

(** C8, as stated, fails: [int] reads a sign, so the row [-4 tty] of a
    section stores the key -4 and the construction succeeds. *)
Lemma C8_negative_key_counterexample :
  ¬ (∀ v lines inst,
       ProcDev_new v lines = inr inst →
       ∀ dt tp k, _tables inst !! dt = Some tp → is_Some (left tp !! k) → 0 ≤ k).
Proof.
  intros H.
  specialize (H Py3 ["Character devices:"; "-4 tty"]
                (stored CHARACTER (-4) "tty" fresh_instance) eq_refl
                CHARACTER (mk_TablePairs {[ (-4) := "tty" ]} None) (-4)).
  assert (¬ 0 ≤ -4) as Hneg by lia.
  apply Hneg, H.
  - vm_compute. reflexivity.
  - simpl. rewrite lookup_singleton_eq. by eexists.
Qed.

(** C8, amended.  After a successful construction every entry of a forward
    table was stored for a row of the input, under the integer (of either
    sign) that [int] read from the first token of that row.  A row whose
    first token [int] rejects makes the construction fail: with the
    ValueError of [int] inside a section, with the ProcDevParsingError of
    the section outside one.  No row is dropped. *)
Theorem C8_keys_read_by_int v :
  (∀ lines inst,
     ProcDev_new v lines = inr inst →
     ∀ dt tp k d,
       _tables inst !! dt = Some tp → left tp !! k = Some d →
       ∃ line major,
         line ∈ lines ∧ is_blank v line = false ∧ is_header v line = false
         ∧ split v (rstrip v line) = [major; d] ∧ int v major = Some k)
  ∧ (∀ pre row post p s major device,
       parse_lines v NOTYPE pre fresh_instance = (Return p, s) →
       is_blank v row = false → is_header v row = false →
       split v (rstrip v row) = [major; device] →
       int v major = None →
       ProcDev_new v (pre ++ row :: post)
       = inl (if decide (p = NOTYPE) then parsing_error_section NOTYPE
              else ValueError)).
Proof.
  split.
  - intros lines inst Hnew. rewrite ProcDev_new_parse_lines in Hnew.
    destruct (parse_lines v NOTYPE lines fresh_instance) as [[p|e] s] eqn:Hp;
      [|done].
    injection Hnew as ->.
    apply (parse_lines_entries_from v [] _ _ _ _ _ Hp), fresh_entries_from.
  - intros pre row post p s major device Hpre Hb Hh Ht Hi.
    assert (two_tables s) as (Hc & Hbk & Hnone)
      by eauto using parse_lines_two_tables, fresh_two_tables.
    destruct (decide (p = NOTYPE)) as [->|Hp].
    + eapply ProcDev_new_first_raise; [done|].
      apply parse_line_unknown_section; try done.
      unfold tokens. by rewrite Ht.
    + eapply ProcDev_new_first_raise; [done|].
      eapply parse_line_bad_int; eauto. by destruct p.
Qed.

Lemma C8_keys_read_by_int_witness :
  (∃ line major,
     line ∈ ["Character devices:"; "-4 tty"]
     ∧ is_blank Py3 line = false ∧ is_header Py3 line = false
     ∧ split Py3 (rstrip Py3 line) = [major; "tty"] ∧ int Py3 major = Some (-4))
  ∧ ProcDev_new Py3 (["Character devices:"] ++ "four tty" :: [])
    = inl ValueError.
Proof.
  pose proof (C8_keys_read_by_int Py3) as [H1 H2]. split.
  - apply (H1 ["Character devices:"; "-4 tty"]
              (stored CHARACTER (-4) "tty" fresh_instance) eq_refl
              CHARACTER (mk_TablePairs {[ (-4) := "tty" ]} None) (-4) "tty").
    + vm_compute. reflexivity.
    + vm_compute. reflexivity.
  - apply (H2 ["Character devices:"] "four tty" [] CHARACTER fresh_instance
              "four" "tty" eq_refl eq_refl eq_refl eq_refl eq_refl).
Defined.

(** * Properties of the queries *)

Section Queries.

Variable v : PyVersion.

(** [get_driver] and [get_majors] are declared with two parameters and no
    [self]: a call on an instance passes three arguments and raises before
    the body starts. *)
Lemma get_driver_call device_type major_number s :
  get_driver device_type major_number s = (Raise TypeError, s).
Proof. reflexivity. Qed.

Lemma get_majors_call device_type driver s :
  get_majors v device_type driver s = (Raise TypeError, s).
Proof. reflexivity. Qed.

(** What the statements of [get_driver] do once [self] is the instance. *)
Lemma get_driver_body_bad_type device_type major_number s :
  _tables s !! device_type = None →
  get_driver_body device_type major_number s
  = (Raise (ProcDevValueError device_type "device_type"), s).
Proof.
  intros H. unfold get_driver_body, bind, tables_lookup, get_self, bind, ret.
  simpl. by rewrite H.
Qed.

Lemma get_driver_body_lookup device_type major_number s tp :
  _tables s !! device_type = Some tp →
  get_driver_body device_type major_number s
  = (Return (left tp !! major_number), s).
Proof.
  intros H. unfold get_driver_body, bind, tables_lookup, get_self, bind, ret.
  simpl. by rewrite H.
Qed.

Lemma get_driver_body_state device_type major_number s :
  (get_driver_body device_type major_number s).2 = s.
Proof.
  destruct (_tables s !! device_type) as [tp|] eqn:H.
  - by erewrite get_driver_body_lookup.
  - by rewrite get_driver_body_bad_type.
Qed.

Lemma get_majors_body_bad_type device_type driver s :
  _tables s !! device_type = None →
  get_majors_body v device_type driver s
  = (Raise (ProcDevValueError device_type "device_type"), s).
Proof.
  intros H. unfold get_majors_body, bind, tables_lookup, get_self, bind, ret.
  simpl. by rewrite H.
Qed.

Lemma sorted_positional_raises {A K} (l : list A) (f : A → K) :
  v = Py3 ∨ (2 ≤ length l)%nat → sorted_positional v l f = None.
Proof.
  intros [->|H]; [done|].
  destruct v; [|done]. destruct l as [|a [|b l]]; simpl in *; [lia|lia|done].
Qed.

(** The build raises under Python 3, and under Python 2 as soon as the
    table holds two entries. *)
Lemma _build_reverse_table_raises table s :
  v = Py3 ∨ (2 ≤ size table)%nat →
  _build_reverse_table v table s = (Raise TypeError, counted s).
Proof.
  intros H. unfold _build_reverse_table, _build_reverse_table_params.
  rewrite call_method_self by done.
  unfold _build_reverse_table_body, bind, count_build, get_self, put_self, bind.
  simpl. rewrite sorted_positional_raises; [done|].
  by rewrite length_map_to_list.
Qed.

(** When the build raises no assignment is made: the slot stays as it
    was. *)
Lemma get_majors_body_build_raises device_type driver s tp :
  _tables s !! device_type = Some tp →
  truthy (right tp) = false →
  v = Py3 ∨ (2 ≤ size (left tp))%nat →
  get_majors_body v device_type driver s = (Raise TypeError, counted s).
Proof.
  intros Htp Hr Hv.
  unfold get_majors_body, bind at 1. unfold tables_lookup, get_self, bind, ret.
  simpl. rewrite Htp. simpl.
  destruct (right tp) as [d|] eqn:Hd.
  - simpl in Hr |- *. rewrite Hr. by rewrite _build_reverse_table_raises.
  - by rewrite _build_reverse_table_raises.
Qed.

End Queries.

Lemma scenario_character_major_4 :
  ∃ tp, _tables scenario_instance !! CHARACTER = Some tp
        ∧ left tp !! 4 = Some "tty".
Proof.
  exists (mk_TablePairs (<[4 := "tty"]> (<[4 := "/dev/vc/0"]> {[ 1 := "mem" ]})) None).
  split; by vm_compute.
Qed.

(** * The claims on the queries *)

(** C1.  What the code does on the scenario of the spec: the construction
    returns [scenario_instance], whose character table holds the two
    entries 1 (mem) and 4 (tty); the call
    [instance.get_majors(CHARACTER, "mem")] raises TypeError and leaves the
    instance as it was, instead of returning the set of 1; and the
    statements of [get_majors], run with [self] the instance, raise
    TypeError from [sorted], under either interpreter. *)
Theorem C1_get_majors_on_scenario v :
  ProcDev_new v scenario = inr scenario_instance
  ∧ get_majors v CHARACTER "mem" scenario_instance
    = (Raise TypeError, scenario_instance)
  ∧ get_majors_body v CHARACTER "mem" scenario_instance
    = (Raise TypeError, counted scenario_instance).
Proof.
  split; [|split].
  - destruct v; vm_compute; reflexivity.
  - apply get_majors_call.
  - destruct v; vm_compute; reflexivity.
Qed.

(** C2.  What the code does on the instance of [one_driver_lines]: two
    calls [instance.get_majors(CHARACTER, "mem")] in a row both raise
    TypeError and leave the reverse slot unassigned and nothing built.  Run
    with [self] the instance, the statements of [get_majors] under
    Python 2 build the reverse table of the empty block table at each of
    two calls in a row (the empty dictionary that the first call assigns is
    false in [table_pair.right or ...]), and under Python 3 the build
    raises and the slot stays unassigned. *)
Theorem C2_get_majors_twice v :
  ProcDev_new v one_driver_lines = inr one_driver_instance
  ∧ (let first := get_majors v CHARACTER "mem" one_driver_instance in
     let second := get_majors v CHARACTER "mem" first.2 in
     first.1 = Raise TypeError ∧ second.1 = Raise TypeError
     ∧ second.2 = one_driver_instance
     ∧ right <$> (_tables second.2 !! CHARACTER) = Some None
     ∧ build_calls second.2 = 0%nat)
  ∧ (let first := get_majors_body Py2 BLOCK "mem" one_driver_instance in
     let second := get_majors_body Py2 BLOCK "mem" first.2 in
     first.1 = Return None ∧ second.1 = Return None
     ∧ right <$> (_tables first.2 !! BLOCK) = Some (Some ∅)
     ∧ build_calls first.2 = 1%nat ∧ build_calls second.2 = 2%nat)
  ∧ (let first := get_majors_body Py3 CHARACTER "mem" one_driver_instance in
     first.1 = Raise TypeError
     ∧ right <$> (_tables first.2 !! CHARACTER) = Some None).
Proof.
  split; [|split; [|split]].
  - destruct v; vm_compute; reflexivity.
  - cbv zeta. rewrite !get_majors_call. repeat split; by vm_compute.
  - repeat split; by vm_compute.
  - repeat split; by vm_compute.
Qed.

(** C4.  What the code does on a device type that is no key of [_tables]:
    on any instance the calls [instance.get_driver(NOTYPE, 1)] and
    [instance.get_majors(NOTYPE, "x")] raise TypeError, not
    ProcDevValueError, and leave the instance as it was. *)
Theorem C4_bad_device_type_calls v inst :
  get_driver NOTYPE 1 inst = (Raise TypeError, inst)
  ∧ get_majors v NOTYPE "x" inst = (Raise TypeError, inst).
Proof. split; [apply get_driver_call|apply get_majors_call]. Qed.

(** C5.  What the code does on a miss: in [scenario_instance] the block
    table has no major 1 and no driver mem, and the calls
    [instance.get_driver(BLOCK, 1)] and [instance.get_majors(BLOCK, "mem")]
    raise TypeError instead of returning None.  Run with [self] the
    instance, the statements of [get_driver] return None. *)
Theorem C5_miss_calls v :
  (∃ tp, _tables scenario_instance !! BLOCK = Some tp
         ∧ left tp !! 1 = None
         ∧ ∀ k, left tp !! k ≠ Some "mem")
  ∧ get_driver BLOCK 1 scenario_instance = (Raise TypeError, scenario_instance)
  ∧ get_majors v BLOCK "mem" scenario_instance
    = (Raise TypeError, scenario_instance)
  ∧ get_driver_body BLOCK 1 scenario_instance = (Return None, scenario_instance).
Proof.
  split; [|split; [|split]].
  - exists (mk_TablePairs {[ 7 := "loop" ]} None). split; [by vm_compute|].
    split; [by vm_compute|]. intros k. simpl.
    destruct (decide (k = 7)) as [->|Hk].
    + by rewrite lookup_singleton_eq.
    + by rewrite lookup_singleton_ne.
  - apply get_driver_call.
  - apply get_majors_call.
  - by vm_compute.
Qed.

(** C7.  On the scenario of the spec the construction raises nothing and
    the character table maps 4 to tty, the driver of the last of the two
    rows with that major; the call [instance.get_driver(CHARACTER, 4)]
    raises TypeError instead of returning it.  Run with [self] the
    instance, the statements of [get_driver] return tty. *)
Theorem C7_repeated_major_on_scenario v :
  ProcDev_new v scenario = inr scenario_instance
  ∧ (∃ tp, _tables scenario_instance !! CHARACTER = Some tp
           ∧ left tp !! 4 = Some "tty")
  ∧ get_driver CHARACTER 4 scenario_instance
    = (Raise TypeError, scenario_instance)
  ∧ get_driver_body CHARACTER 4 scenario_instance
    = (Return (Some "tty"), scenario_instance).
Proof.
  split; [|split; [|split]].
  - destruct v; vm_compute; reflexivity.
  - apply scenario_character_major_4.
  - apply get_driver_call.
  - by vm_compute.
Qed.

(** C10.  [get_driver] leaves the instance as it found it, whatever the
    device type and the major number: the two forward tables, the two
    reverse slots and the count of builds are the same after the call.
    This holds of the call on an instance and of the statements of the
    body run with [self] the instance. *)
Theorem C10_get_driver_leaves_instance inst device_type major_number :
  (get_driver device_type major_number inst).2 = inst
  ∧ (get_driver_body device_type major_number inst).2 = inst.
Proof.
  split.
  - by rewrite get_driver_call.
  - apply get_driver_body_state.
Qed.

(** * Further properties of the parser *)

Section ParserMore.

Variable v : PyVersion.

Lemma parse_line_section p line s p' s' :
  parse_line v p line s = (Return p', s') → p' = section_of v p line.
Proof.
  unfold parse_line, section_of.
  destruct (String.eqb (rstrip v line) ""); [by intros [= <- _]|].
  destruct (String.eqb (rstrip v line) "Character devices:"); [by intros [= <- _]|].
  destruct (String.eqb (rstrip v line) "Block devices:"); [by intros [= <- _]|].
  unfold bind, or_raise, tables_lookup, left_setitem, get_self, put_self, bind,
    ret, raise.
  intros H. repeat case_match; simplify_eq; done.
Qed.

Lemma parse_lines_section p lines s p' s' :
  parse_lines v p lines s = (Return p', s') → p' = section_after v p lines.
Proof.
  revert p s. induction lines as [|x l IH]; intros p s; simpl.
  - unfold ret. by intros [= <- _].
  - unfold bind. destruct (parse_line v p x s) as [[p1|e] s1] eqn:Hx; [|done].
    intros H. apply parse_line_section in Hx as ->. by eapply IH.
Qed.

Lemma two_tables_section s p :
  two_tables s → (is_Some (_tables s !! p) ↔ p ≠ NOTYPE).
Proof.
  intros (Hc & Hb & Hn). destruct p; split; try done.
  rewrite Hn. by intros [? ?].
Qed.

Lemma parse_line_returns_iff p line s :
  two_tables s →
  (∃ p' s', parse_line v p line s = (Return p', s')) ↔ line_ok v p line = true.
Proof.
  intros Hs. pose proof (parse_line_turn v p line s) as Ht.
  pose proof (two_tables_section s p Hs) as Hsec.
  destruct (parse_line v p line s) as [o s'] eqn:E. simpl in Ht.
  unfold line_ok.
  inversion Ht as [Hb|q Hh Hq|Hb Hh Hl|Hb Hh Hl Hp|major device Hb Hh Hl Hp Hi
                   |major device k Hb Hh Hl Hp Hi]; subst.
  - rewrite Hb. simpl. split; eauto.
  - rewrite Hh, orb_true_r. simpl. split; eauto.
  - rewrite Hb, Hh. simpl. split; [by intros (? & ? & ?)|].
    intros H. apply andb_true_iff in H as [_ H].
    destruct (tokens v line) as [|a [|b [|c l]]]; simpl in *; done.
  - rewrite Hb, Hh. simpl. split; [by intros (? & ? & ?)|].
    intros H. apply andb_true_iff in H as [H _].
    apply negb_true_iff, bool_decide_eq_false in H.
    apply Hsec in H. rewrite Hp in H. by destruct H.
  - rewrite Hb, Hh, Hl, Hi. simpl. rewrite andb_false_r.
    split; [by intros (? & ? & ?)|done].
  - rewrite Hb, Hh, Hl, Hi. simpl. apply Hsec in Hp.
    rewrite bool_decide_eq_false_2 by done. split; eauto.
Qed.

Lemma parse_lines_returns_iff p lines s :
  two_tables s →
  (∃ p' s', parse_lines v p lines s = (Return p', s')) ↔ lines_ok v p lines = true.
Proof.
  revert p s. induction lines as [|x l IH]; intros p s Hs; simpl.
  - split; [done|]. intros _. by exists p, s.
  - unfold bind. rewrite andb_true_iff, <- (parse_line_returns_iff p x s Hs).
    pose proof (parse_line_turn v p x s) as Ht.
    destruct (parse_line v p x s) as [[p1|e] s1] eqn:Hx; simpl in Ht.
    + apply parse_line_section in Hx as Hp1. subst p1.
      rewrite <- (IH _ s1) by eauto using turn_two_tables.
      split; [intros H; split; eauto|by intros [_ H]].
    + split; [by intros (? & ? & ?)|by intros [(? & ? & ?) _]].
Qed.

Lemma stored_unbuilt p k device s : unbuilt s → unbuilt (stored p k device s).
Proof.
  intros [Hr Hc]. split; [|done]. intros dt tp Hdt.
  destruct (stored_lookup _ _ _ _ _ _ Hdt) as (tp0 & Htp0 & -> & _). eauto.
Qed.

Lemma parse_lines_unbuilt p lines s o s' :
  parse_lines v p lines s = (o, s') → unbuilt s → unbuilt s'.
Proof.
  revert p s. induction lines as [|line lines IH]; intros p s; simpl.
  - unfold ret. by intros [= _ <-].
  - unfold bind. pose proof (parse_line_turn v p line s) as Ht.
    destruct (parse_line v p line s) as [[p'|e] s1]; simpl in Ht.
    + intros H Hs. eapply IH; [done|].
      inversion Ht; subst; auto using stored_unbuilt.
    + intros [= _ <-] Hs. inversion Ht; subst; auto.
Qed.

Lemma fresh_unbuilt : unbuilt fresh_instance.
Proof.
  split; [|done]. intros dt tp H. unfold fresh_instance in H. simpl in H.
  destruct dt; by simplify_map_eq.
Qed.

Lemma rstrip_idemp (s : string) : rstrip v (rstrip v s) = rstrip v s.
Proof.
  induction s as [|c s IH]; simpl; [done|].
  destruct (isspace v c && is_empty_str (rstrip v s)) eqn:E; simpl; [done|].
  by rewrite IH, E.
Qed.

Lemma parse_line_rstrip p line :
  parse_line v p (rstrip v line) = parse_line v p line.
Proof. unfold parse_line. by rewrite rstrip_idemp. Qed.

Lemma parse_lines_rstrip p lines s :
  parse_lines v p (map (rstrip v) lines) s = parse_lines v p lines s.
Proof.
  revert p s. induction lines as [|x l IH]; intros p s; simpl; [done|].
  rewrite parse_line_rstrip. unfold bind.
  destruct (parse_line v p x s) as [[p1|e] s1]; [apply IH|done].
Qed.

Lemma parse_lines_markers p lines s :
  (∀ line, line ∈ lines → is_blank v line = true ∨ is_header v line = true) →
  parse_lines v p lines s = (Return (section_after v p lines), s).
Proof.
  revert p. induction lines as [|x l IH]; intros p H; simpl; [done|].
  unfold bind.
  assert (∃ p1, parse_line v p x s = (Return p1, s)) as [p1 Hx].
  { destruct (H x) as [Hb|Hh]; [set_solver| |].
    - rewrite parse_line_blank by done. eauto.
    - destruct (parse_line_header v p x s Hh) as (p1 & _ & ->). eauto. }
  rewrite Hx. apply parse_line_section in Hx as ->.
  apply IH. intros line Hl. apply H. set_solver.
Qed.

End ParserMore.

(** X1.  A construction that returns leaves exactly the two tables of
    CHARACTER and BLOCK, both with the reverse slot still [None], and has
    built nothing: the parser writes forward tables only. *)
Theorem X1_construction_leaves_reverse_unbuilt v lines inst :
  ProcDev_new v lines = inr inst →
  (∃ tc tb, _tables inst !! CHARACTER = Some tc ∧ _tables inst !! BLOCK = Some tb
            ∧ right tc = None ∧ right tb = None)
  ∧ _tables inst !! NOTYPE = None
  ∧ build_calls inst = 0%nat.
Proof.
  rewrite ProcDev_new_parse_lines.
  destruct (parse_lines v NOTYPE lines fresh_instance) as [[p|e] s] eqn:Hp; [|done].
  intros [= ->].
  pose proof (parse_lines_two_tables v _ _ _ _ _ Hp fresh_two_tables)
    as ([tc Hc] & [tb Hb] & Hn).
  pose proof (parse_lines_unbuilt v _ _ _ _ _ Hp fresh_unbuilt) as [Hr Hz].
  split; [|done]. exists tc, tb. repeat split; eauto.
Qed.

Lemma X1_construction_leaves_reverse_unbuilt_witness :
  (∃ tc tb, _tables scenario_instance !! CHARACTER = Some tc
            ∧ _tables scenario_instance !! BLOCK = Some tb
            ∧ right tc = None ∧ right tb = None)
  ∧ _tables scenario_instance !! NOTYPE = None
  ∧ build_calls scenario_instance = 0%nat.
Proof.
  apply (X1_construction_leaves_reverse_unbuilt Py3 scenario).
  vm_compute. reflexivity.
Defined.

(** X2.  On the lines that the opened file yields, the construction
    returns an instance exactly when every line is blank, a header, or a
    row of two tokens that stands inside a section and whose first token
    [int] reads: [lines_ok] decides which inputs are accepted.  [int] is
    that of the interpreter [v], digit limit of Python 3 included. *)
Theorem X2_construction_accepts_iff v lines :
  (∃ inst, ProcDev_new v lines = inr inst) ↔ lines_ok v NOTYPE lines = true.
Proof.
  rewrite <- (parse_lines_returns_iff v NOTYPE lines fresh_instance)
    by apply fresh_two_tables.
  rewrite ProcDev_new_parse_lines.
  destruct (parse_lines v NOTYPE lines fresh_instance) as [[p|e] s]; split.
  - intros _. by exists p, s.
  - intros _. by exists s.
  - by intros [? ?].
  - by intros (? & ? & ?).
Qed.

(** X3.  When the construction raises on the lines that the opened file
    yields (a failure of [open] or of reading comes before any line and is
    not modelled), the exception is one of three and is due to a line of
    the input that is neither blank nor a header: the
    ProcDevParsingError with that line for a line of other than two tokens,
    the ProcDevParsingError for the section NOTYPE for a row of two tokens,
    or the bare ValueError of [int] for a row whose first token [int]
    refuses, as no literal or as a literal over the digit limit.  The last one is not a ProcDevParsingError although the
    docstring of [_parse_file] names no other. *)
Theorem X3_construction_raises_only v lines e :
  ProcDev_new v lines = inl e →
  ∃ line,
    line ∈ lines ∧ is_blank v line = false ∧ is_header v line = false
    ∧ ((length (split v (rstrip v line)) ≠ 2%nat
        ∧ e = ProcDevParsingError ("Unexpected format for line " ++ rstrip v line)%string)
       ∨ (length (split v (rstrip v line)) = 2%nat
          ∧ e = ProcDevParsingError "Parsing data for unknown device type NOTYPE.")
       ∨ (∃ major device,
            split v (rstrip v line) = [major; device] ∧ int v major = None
            ∧ e = ValueError)).
Proof.
  rewrite ProcDev_new_parse_lines. intros Hnew.
  destruct (parse_lines_cases v NOTYPE fresh_instance lines)
    as [(p & s & Hok & _)|(e' & pre & line & post & p & s & s' & -> & Hpre & Hline & Hres)].
  { by rewrite Hok in Hnew. }
  rewrite Hres in Hnew. injection Hnew as ->.
  pose proof (parse_lines_two_tables v _ _ _ _ _ Hpre fresh_two_tables) as Hs.
  pose proof (parse_line_turn v p line s) as Ht. rewrite Hline in Ht. simpl in Ht.
  exists line. split; [set_solver|].
  inversion Ht as [| |Hb Hh Hl|Hb Hh Hl Hp|major device Hb Hh Hl Hp Hi|]; subst.
  - eauto.
  - repeat split; try done. right. left. split; [done|].
    destruct p; try done; destruct Hs as (Hc & Hbk & _).
    + rewrite Hp in Hc. by destruct Hc.
    + rewrite Hp in Hbk. by destruct Hbk.
  - repeat split; try done. right. right. by exists major, device.
Qed.

Lemma X3_construction_raises_only_witness :
  ∃ line,
    line ∈ ["Block devices:"; "7 loop"; "eight sd"]
    ∧ is_blank Py2 line = false ∧ is_header Py2 line = false
    ∧ ((length (split Py2 (rstrip Py2 line)) ≠ 2%nat
        ∧ ValueError
          = ProcDevParsingError ("Unexpected format for line " ++ rstrip Py2 line)%string)
       ∨ (length (split Py2 (rstrip Py2 line)) = 2%nat
          ∧ ValueError
            = ProcDevParsingError "Parsing data for unknown device type NOTYPE.")
       ∨ (∃ major device,
            split Py2 (rstrip Py2 line) = [major; device] ∧ int Py2 major = None
            ∧ ValueError = ValueError)).
Proof.
  apply (X3_construction_raises_only Py2 ["Block devices:"; "7 loop"; "eight sd"]).
  vm_compute. reflexivity.
Defined.

(** X4.  Blanks at the end of a line, the newline among them, change
    nothing: the construction on the lines stripped on the right gives what
    it gives on the lines themselves, instance or exception. *)
Theorem X4_trailing_blanks_ignored v lines :
  ProcDev_new v (map (rstrip v) lines) = ProcDev_new v lines.
Proof. by rewrite !ProcDev_new_parse_lines, parse_lines_rstrip. Qed.

(** X5.  The loop stops at the first turn that raises: when the
    construction raises on some lines it raises the same exception on these
    lines followed by any others. *)
Theorem X5_failure_of_prefix v pre post e :
  ProcDev_new v pre = inl e → ProcDev_new v (pre ++ post) = inl e.
Proof.
  rewrite !ProcDev_new_parse_lines, parse_lines_app.
  by destruct (parse_lines v NOTYPE pre fresh_instance) as [[p|e'] s].
Qed.

Lemma X5_failure_of_prefix_witness :
  ProcDev_new Py3 (["1 mem"] ++ ["Character devices:"; "1 mem"])
  = inl (ProcDevParsingError "Parsing data for unknown device type NOTYPE.").
Proof.
  apply (X5_failure_of_prefix Py3 ["1 mem"] ["Character devices:"; "1 mem"]).
  vm_compute. reflexivity.
Defined.

(** X6.  An input of blank lines and headers only, the empty input among
    them, gives the instance with two empty forward tables. *)
Theorem X6_markers_only_empty_tables v lines :
  forallb (λ line, is_blank v line || is_header v line) lines = true →
  ProcDev_new v lines = inr fresh_instance.
Proof.
  intros H. rewrite ProcDev_new_parse_lines, parse_lines_markers; [done|].
  intros line Hl. rewrite forallb_forall in H.
  apply orb_true_iff, H. by apply list_elem_of_In.
Qed.

Lemma X6_markers_only_empty_tables_witness :
  ProcDev_new Py3 ["Character devices:"; ""; "Block devices:"; nl] = inr fresh_instance.
Proof.
  apply (X6_markers_only_empty_tables Py3). vm_compute. reflexivity.
Defined.

Section Rows.

Variable v : PyVersion.

Lemma parse_lines_entries_section lines p s dt tp k d :
  parse_lines v NOTYPE lines fresh_instance = (Return p, s) →
  _tables s !! dt = Some tp → left tp !! k = Some d →
  ∃ pre row post major,
    lines = pre ++ row :: post ∧ section_after v NOTYPE pre = dt
    ∧ is_blank v row = false ∧ is_header v row = false
    ∧ tokens v row = [major; d] ∧ int v major = Some k.
Proof.
  revert p s dt tp k d. induction lines as [|x l IH] using rev_ind;
    intros p s dt tp k d H Hdt Hk.
  - simpl in H. injection H as _ <-.
    destruct (fresh_entries_from v dt tp k d Hdt Hk) as (line & ? & Hin & _).
    by apply elem_of_nil in Hin.
  - rewrite parse_lines_app in H.
    destruct (parse_lines v NOTYPE l fresh_instance) as [[p0|e] s0] eqn:Hl; [|done].
    simpl in H. unfold bind in H.
    pose proof (parse_line_turn v p0 x s0) as Ht.
    destruct (parse_line v p0 x s0) as [[p1|e] s1] eqn:Hx; [|done].
    simpl in H, Ht. injection H as -> ->.
    assert (∀ tp0, _tables s0 !! dt = Some tp0 → left tp0 !! k = Some d →
              ∃ pre row post major,
                l ++ [x] = pre ++ row :: post ∧ section_after v NOTYPE pre = dt
                ∧ is_blank v row = false ∧ is_header v row = false
                ∧ tokens v row = [major; d] ∧ int v major = Some k) as Hold.
    { intros tp0 H0 H1.
      destruct (IH p0 s0 dt tp0 k d eq_refl H0 H1)
        as (pre & row & post & major & -> & Hrest).
      exists pre, row, (post ++ [x]), major. split; [|done].
      by rewrite <- app_assoc. }
    inversion Ht as [| | | | |major device k0 Hb Hh Htok Hp Hi]; subst; eauto.
    destruct (stored_lookup _ _ _ _ _ _ Hdt) as (tp0 & Htp0 & _ & Hleft).
    rewrite Hleft in Hk. destruct (decide (p = dt)) as [->|Hne]; [|eauto].
    destruct (decide (k0 = k)) as [->|Hk0].
    + rewrite lookup_insert_eq in Hk. injection Hk as ->.
      exists l, x, [], major. repeat split; try done.
      symmetry. by eapply parse_lines_section.
    + rewrite lookup_insert_ne in Hk by done. eauto.
Qed.

(** The entry under [k] in the table of [dt] outlives the turns on [post]
    when no row of [post] read in section [dt] has the key [k]. *)
Lemma parse_lines_keeps_entry post p0 s0 p' s' dt k d :
  parse_lines v p0 post s0 = (Return p', s') →
  (∃ tp, _tables s0 !! dt = Some tp ∧ left tp !! k = Some d) →
  (∀ mid row post' major device,
     post = mid ++ row :: post' → section_after v p0 mid = dt →
     is_blank v row = false → is_header v row = false →
     tokens v row = [major; device] → int v major ≠ Some k) →
  ∃ tp, _tables s' !! dt = Some tp ∧ left tp !! k = Some d.
Proof.
  revert p0 s0. induction post as [|x l IH]; intros p0 s0 H Hentry Hno.
  - simpl in H. by injection H as _ <-.
  - simpl in H. unfold bind in H.
    pose proof (parse_line_turn v p0 x s0) as Ht.
    destruct (parse_line v p0 x s0) as [[p1|e] s1] eqn:Hx; [|done].
    simpl in Ht. pose proof (parse_line_section v _ _ _ _ _ Hx) as Hp1.
    apply (IH _ _ H).
    + clear Hp1 Hx H.
      inversion Ht as [| | | | |major device k0 Hb Hh Htok Hp Hi]; subst; try done.
      destruct Hentry as (tp & Htp & Hk). unfold stored. simpl.
      rewrite lookup_alter. destruct (decide (p1 = dt)) as [->|Hne].
      * rewrite Htp. simpl. eexists. split; [reflexivity|]. simpl.
        rewrite lookup_insert_ne; [done|].
        intros ->. by apply (Hno [] x l major device).
      * by exists tp.
    + intros mid row post' major device -> Hsec. rewrite Hp1 in Hsec.
      by apply (Hno (x :: mid) row post' major device).
Qed.

Lemma chars_app (a b : string) : chars (a ++ b)%string = chars a ++ chars b.
Proof. induction a as [|c a IH]; simpl; [done|]. unfold chars in *. simpl. by rewrite IH. Qed.

Lemma split_from_tokens (s cur t : string) :
  (∀ c, c ∈ chars cur → isspace v c = false) →
  t ∈ split_from v cur s →
  t ≠ EmptyString ∧ ∀ c, c ∈ chars t → isspace v c = false.
Proof.
  revert cur. induction s as [|c s IH]; intros cur Hcur; simpl.
  - destruct cur as [|a cur]; simpl; [by intros ?%elem_of_nil|].
    intros ->%list_elem_of_singleton. done.
  - destruct (isspace v c) eqn:Hc.
    + destruct cur as [|a cur]; simpl.
      * apply IH. by intros ? ?%elem_of_nil.
      * intros [->|Ht]%elem_of_cons; [done|].
        revert Ht. apply IH. by intros ? ?%elem_of_nil.
    + apply IH. intros a. rewrite chars_app.
      intros [Ha|Ha]%elem_of_app; [by apply Hcur|].
      apply list_elem_of_singleton in Ha. by subst.
Qed.

End Rows.

(** X7.  The sections are separate name spaces: every entry of the table of
    a device type was stored for a row that the loop read while [parsing]
    was that device type, as the headers and blank lines before the row
    left it. *)
Theorem X7_entries_read_in_their_section v lines inst dt tp k d :
  ProcDev_new v lines = inr inst →
  _tables inst !! dt = Some tp → left tp !! k = Some d →
  ∃ pre row post major,
    lines = pre ++ row :: post ∧ section_after v NOTYPE pre = dt
    ∧ is_blank v row = false ∧ is_header v row = false
    ∧ split v (rstrip v row) = [major; d] ∧ int v major = Some k.
Proof.
  rewrite ProcDev_new_parse_lines.
  destruct (parse_lines v NOTYPE lines fresh_instance) as [[p|e] s] eqn:Hp; [|done].
  intros [= ->]. by apply (parse_lines_entries_section v lines p).
Qed.

Lemma X7_entries_read_in_their_section_witness :
  ∃ pre row post major,
    scenario = pre ++ row :: post ∧ section_after Py3 NOTYPE pre = BLOCK
    ∧ is_blank Py3 row = false ∧ is_header Py3 row = false
    ∧ split Py3 (rstrip Py3 row) = [major; "loop"] ∧ int Py3 major = Some 7.
Proof.
  apply (X7_entries_read_in_their_section Py3 scenario scenario_instance BLOCK
           (mk_TablePairs {[ 7 := "loop" ]} None) 7 "loop").
  - vm_compute. reflexivity.
  - vm_compute. reflexivity.
  - vm_compute. reflexivity.
Defined.

(** X8.  The last row wins, in general: when the construction returns, a
    row read in section [dt] with key [k] and driver [d] is what the table
    of [dt] holds under [k], provided no later row read in section [dt]
    has the key [k]. *)
Theorem X8_last_row_wins v pre row post inst dt major k d :
  ProcDev_new v (pre ++ row :: post) = inr inst →
  section_after v NOTYPE pre = dt →
  is_blank v row = false → is_header v row = false →
  split v (rstrip v row) = [major; d] → int v major = Some k →
  (∀ mid row' post' major' d',
     post = mid ++ row' :: post' →
     section_after v NOTYPE (pre ++ row :: mid) = dt →
     is_blank v row' = false → is_header v row' = false →
     split v (rstrip v row') = [major'; d'] → int v major' ≠ Some k) →
  ∃ tp, _tables inst !! dt = Some tp ∧ left tp !! k = Some d.
Proof.
  intros Hnew Hsec Hb Hh Htok Hi Hno.
  rewrite ProcDev_new_parse_lines, parse_lines_app in Hnew.
  destruct (parse_lines v NOTYPE pre fresh_instance) as [[p|e] s] eqn:Hpre; [|done].
  apply parse_lines_section in Hpre as Hp. rewrite Hsec in Hp. subst p.
  simpl in Hnew. unfold bind in Hnew.
  destruct (_tables s !! dt) as [tp0|] eqn:Hdt.
  2:{ rewrite (parse_line_unknown_section v dt row s) in Hnew; try done.
      unfold tokens. by rewrite Htok. }
  rewrite (parse_line_store v dt row s major d k) in Hnew by eauto.
  destruct (parse_lines v dt post (stored dt k d s)) as [[p'|e] s'] eqn:Hpost;
    [|done].
  injection Hnew as ->.
  apply (parse_lines_keeps_entry v post dt (stored dt k d s) p' inst dt k d Hpost).
  - apply stored_last_wins. eauto.
  - intros mid row' post' major' d' -> Hmid. apply (Hno mid row' post' major' d' eq_refl).
    unfold section_after in *. rewrite fold_left_app. simpl.
    rewrite Hsec. unfold section_of.
    unfold is_blank in Hb. unfold is_header in Hh.
    apply orb_false_iff in Hh as [Hc Hbk]. by rewrite Hb, Hc, Hbk.
Qed.

Lemma X8_last_row_wins_witness :
  ∃ tp, _tables scenario_instance !! CHARACTER = Some tp
        ∧ left tp !! 4 = Some "tty".
Proof.
  refine (X8_last_row_wins Py3
            [("Character devices:" ++ nl)%string; ("1 mem" ++ nl)%string;
             ("4 /dev/vc/0" ++ nl)%string]
            ("4 tty" ++ nl)%string
            [nl; ("Block devices:" ++ nl)%string; ("7 loop" ++ nl)%string]
            scenario_instance CHARACTER "4" 4 "tty" _ eq_refl eq_refl eq_refl
            eq_refl eq_refl _).
  - vm_compute. reflexivity.
  - intros mid row' post' major' d' Hpost Hsec Hb Hh Htok.
    destruct mid as [|m0 [|m1 [|m2 [|m3 mid]]]]; simplify_eq/=;
      vm_compute in Hsec; try discriminate;
      vm_compute in Hb; discriminate.
Defined.

(** X9.  After a construction that returns, every driver name in a forward
    table is a token of its row: it is not empty and holds no blank
    character. *)
Theorem X9_driver_names_are_tokens v lines inst dt tp k d :
  ProcDev_new v lines = inr inst →
  _tables inst !! dt = Some tp → left tp !! k = Some d →
  d ≠ EmptyString ∧ ∀ c, c ∈ chars d → isspace v c = false.
Proof.
  rewrite ProcDev_new_parse_lines.
  destruct (parse_lines v NOTYPE lines fresh_instance) as [[p|e] s] eqn:Hp; [|done].
  intros [= ->] Hdt Hk.
  destruct (parse_lines_entries_section v lines p inst dt tp k d Hp Hdt Hk)
    as (pre & row & post & major & _ & _ & _ & _ & Htok & _).
  apply (split_from_tokens v (rstrip v row) EmptyString).
  - by intros ? ?%elem_of_nil.
  - fold (split v (rstrip v row)). fold (tokens v row). rewrite Htok. set_solver.
Qed.

Lemma X9_driver_names_are_tokens_witness :
  "loop" ≠ EmptyString ∧ ∀ c, c ∈ chars "loop" → isspace Py3 c = false.
Proof.
  apply (X9_driver_names_are_tokens Py3 scenario scenario_instance BLOCK
           (mk_TablePairs {[ 7 := "loop" ]} None) 7 "loop").
  - vm_compute. reflexivity.
  - vm_compute. reflexivity.
  - vm_compute. reflexivity.
Defined.

(** * Further properties of the queries *)

Section QueriesMore.

Variable v : PyVersion.

Lemma _build_reverse_table_unfold table s :
  _build_reverse_table v table s =
    match sorted_positional v (map_to_list table) snd with
    | Some items =>
        (Return (dict_of_pairs
                   (map (λ g : string * list (Z * string),
                           (g.1, list_to_set (map fst g.2) : gset Z))
                        (groupby snd items))), counted s)
    | None => (Raise TypeError, counted s)
    end.
Proof.
  unfold _build_reverse_table, _build_reverse_table_params.
  rewrite call_method_self by done.
  unfold _build_reverse_table_body, bind, count_build, get_self, put_self, bind.
  simpl. by destruct (sorted_positional v (map_to_list table) snd).
Qed.

Lemma _build_reverse_table_counts table s :
  build_calls (_build_reverse_table v table s).2 = S (build_calls s)
  ∧ _tables (_build_reverse_table v table s).2 = _tables s.
Proof.
  rewrite _build_reverse_table_unfold.
  by destruct (sorted_positional v (map_to_list table) snd).
Qed.

Lemma right_setattr_same dt tp r s :
  _tables s !! dt = Some tp → right tp = Some r →
  right_setattr dt r s = (Return tt, s).
Proof.
  intros Htp Hr. unfold right_setattr, bind, get_self, put_self. simpl.
  destruct s as [tables calls]. simpl in *. do 2 f_equal.
  apply map_eq. intros i. rewrite lookup_alter.
  destruct (decide (dt = i)) as [<-|Hne]; [|done].
  rewrite Htp. simpl. destruct tp as [l rt]. simpl in *. by subst.
Qed.

Lemma get_majors_body_unfold device_type driver s tp :
  _tables s !! device_type = Some tp →
  get_majors_body v device_type driver s =
    match (if truthy (right tp) then (Return (default ∅ (right tp)), s)
           else _build_reverse_table v (left tp) s) with
    | (Return value, s1) =>
        (Return (value !! driver), (right_setattr device_type value s1).2)
    | (Raise e, s1) => (Raise e, s1)
    end.
Proof.
  intros Htp. unfold get_majors_body, bind, tables_lookup, get_self, ret.
  cbn -[truthy _build_reverse_table right_setattr]. rewrite Htp.
  cbn -[truthy _build_reverse_table right_setattr].
  destruct (right tp) as [r|]; cbn -[truthy _build_reverse_table right_setattr].
  - destruct (truthy (Some r)); [done|].
    by destruct (_build_reverse_table v (left tp) s) as [[? |?] ?].
  - by destruct (_build_reverse_table v (left tp) s) as [[? |?] ?].
Qed.

End QueriesMore.

(** X10.  [_build_reverse_table], the one query method that can be called
    on an instance, raises TypeError under Python 3 on every table and
    under Python 2 on every table of two entries or more.  Under Python 2
    on a table of at most one entry it returns the reverse table: each
    driver of the table with the non-empty set of its majors, and nothing
    else.  In both cases it leaves the tables of the instance alone. *)
Theorem X10_build_reverse_table v (table : gmap Z string) s :
  (v = Py3 ∨ (2 ≤ size table)%nat →
   _build_reverse_table v table s = (Raise TypeError, counted s))
  ∧ (v = Py2 → (size table ≤ 1)%nat →
     ∃ r, _build_reverse_table v table s = (Return r, counted s)
          ∧ (∀ k d, table !! k = Some d → is_Some (r !! d))
          ∧ (∀ d ks, r !! d = Some ks →
               ks ≠ ∅ ∧ ∀ k, k ∈ ks ↔ table !! k = Some d)).
Proof.
  split; [apply _build_reverse_table_raises|].
  intros -> Hsize. rewrite _build_reverse_table_unfold.
  rewrite <- length_map_to_list in Hsize.
  assert (∀ k d, (k, d) ∈ map_to_list table ↔ table !! k = Some d) as Hel
    by (intros; apply elem_of_map_to_list).
  destruct (map_to_list table) as [|[k0 d0] [|? ?]]; simpl in *; [| |lia].
  - eexists. split; [reflexivity|]. split.
    + intros k d Hk. apply Hel in Hk. by apply elem_of_nil in Hk.
    + intros d ks H. unfold dict_of_pairs in H. simpl in H.
      by rewrite lookup_empty in H.
  - eexists. split; [reflexivity|]. unfold dict_of_pairs. simpl. split.
    + intros k d Hk. apply Hel, list_elem_of_singleton in Hk.
      injection Hk as -> ->. rewrite lookup_insert_eq. by eexists.
    + intros d ks H. destruct (decide (d0 = d)) as [->|Hne].
      * rewrite lookup_insert_eq in H. injection H as <-.
        split; [apply (non_empty_inhabited_L k0); set_unfold; auto|].
        intros k. rewrite <- Hel. set_unfold.
        split; [intros [->|[]]; by left|intros [[= ->]|[]]; by left].
      * rewrite lookup_insert_ne in H by done. by rewrite lookup_empty in H.
Qed.

Lemma X10_build_reverse_table_witness :
  _build_reverse_table Py3 {[ 1 := "mem" ]} fresh_instance
  = (Raise TypeError, counted fresh_instance)
  ∧ ∃ r, _build_reverse_table Py2 {[ 1 := "mem" ]} fresh_instance
         = (Return r, counted fresh_instance)
         ∧ (∀ k d, ({[ 1 := "mem" ]} : gmap Z string) !! k = Some d → is_Some (r !! d))
         ∧ (∀ d ks, r !! d = Some ks →
              ks ≠ ∅ ∧ ∀ k, k ∈ ks ↔ ({[ 1 := "mem" ]} : gmap Z string) !! k = Some d).
Proof.
  split.
  - apply (X10_build_reverse_table Py3 {[ 1 := "mem" ]} fresh_instance).
    left. reflexivity.
  - apply (X10_build_reverse_table Py2 {[ 1 := "mem" ]} fresh_instance).
    + reflexivity.
    + vm_compute. lia.
Defined.

(** X11.  The statements of [get_driver], run with [self] the instance that
    a construction returned (the call itself raises TypeError before they
    start): for NOTYPE they raise ProcDevValueError with the device type and
    the text device_type; for CHARACTER and BLOCK they never raise and
    return what the forward table of that type holds under the major,
    [None] when it holds nothing.  The instance is as before in each case. *)
Theorem X11_get_driver_statements v lines inst major_number :
  ProcDev_new v lines = inr inst →
  get_driver_body NOTYPE major_number inst
  = (Raise (ProcDevValueError NOTYPE "device_type"), inst)
  ∧ ∀ device_type, device_type ≠ NOTYPE →
      ∃ tp, _tables inst !! device_type = Some tp
            ∧ get_driver_body device_type major_number inst
              = (Return (left tp !! major_number), inst).
Proof.
  rewrite ProcDev_new_parse_lines.
  destruct (parse_lines v NOTYPE lines fresh_instance) as [[p|e] s] eqn:Hp; [|done].
  intros [= ->].
  pose proof (parse_lines_two_tables v _ _ _ _ _ Hp fresh_two_tables) as Hs.
  split.
  - apply get_driver_body_bad_type. by destruct Hs as (_ & _ & ?).
  - intros dt Hdt. apply (two_tables_section inst dt Hs) in Hdt as [tp Htp].
    exists tp. split; [done|]. by apply get_driver_body_lookup.
Qed.

Lemma X11_get_driver_statements_witness :
  get_driver_body NOTYPE 4 scenario_instance
  = (Raise (ProcDevValueError NOTYPE "device_type"), scenario_instance)
  ∧ ∀ device_type, device_type ≠ NOTYPE →
      ∃ tp, _tables scenario_instance !! device_type = Some tp
            ∧ get_driver_body device_type 4 scenario_instance
              = (Return (left tp !! 4), scenario_instance).
Proof.
  apply (X11_get_driver_statements Py3 scenario scenario_instance 4).
  vm_compute. reflexivity.
Defined.

(** X12.  The statements of [get_majors], run with [self] an instance that
    has a table for the device type (the call itself raises TypeError
    before they start): [_build_reverse_table] is called exactly when the
    reverse slot is [None] or holds the empty dictionary, whether that call
    returns or raises; and when the slot holds a non-empty dictionary they
    return its entry for the driver, [None] when it has none, and the
    instance is as before. *)
Theorem X12_get_majors_statements v device_type driver s tp :
  _tables s !! device_type = Some tp →
  build_calls (get_majors_body v device_type driver s).2
  = (if truthy (right tp) then build_calls s else S (build_calls s))
  ∧ ∀ r, right tp = Some r → r ≠ ∅ →
         get_majors_body v device_type driver s = (Return (r !! driver), s).
Proof.
  intros Htp. rewrite (get_majors_body_unfold v _ _ _ _ Htp). split.
  - destruct (truthy (right tp)) eqn:Ht; [done|].
    pose proof (_build_reverse_table_counts v (left tp) s) as [Hc _].
    by destruct (_build_reverse_table v (left tp) s) as [[r|e] s1].
  - intros r Hr Hne. rewrite Hr. unfold truthy.
    rewrite bool_decide_eq_false_2 by done. cbn [negb default id].
    unfold id. by rewrite (right_setattr_same device_type tp r s).
Qed.

Lemma X12_get_majors_statements_witness :
  build_calls (get_majors_body Py2 BLOCK "loop" built_instance).2
  = (if truthy (right built_block_pair) then build_calls built_instance
     else S (build_calls built_instance))
  ∧ ∀ r, right built_block_pair = Some r → r ≠ ∅ →
         get_majors_body Py2 BLOCK "loop" built_instance
         = (Return (r !! "loop"), built_instance).
Proof.
  apply (X12_get_majors_statements Py2 BLOCK "loop" built_instance
           built_block_pair).
  vm_compute. reflexivity.
Defined.

(** * The construction as a whole *)

Section Atomic.

Variable v : PyVersion.

(** A row that no later row of its section overrides is in the table of
    its section when the loop has returned. *)
Lemma last_row_stored pre row post p s dt major k d :
  parse_lines v NOTYPE (pre ++ row :: post) fresh_instance = (Return p, s) →
  section_after v NOTYPE pre = dt →
  is_blank v row = false → is_header v row = false →
  tokens v row = [major; d] → int v major = Some k →
  (∀ mid row' post' major' d',
     post = mid ++ row' :: post' →
     section_after v NOTYPE (pre ++ row :: mid) = dt →
     is_blank v row' = false → is_header v row' = false →
     tokens v row' = [major'; d'] → int v major' ≠ Some k) →
  ∃ tp, _tables s !! dt = Some tp ∧ left tp !! k = Some d.
Proof.
  intros Hrun Hsec Hb Hh Htok Hi Hno. rewrite parse_lines_app in Hrun.
  destruct (parse_lines v NOTYPE pre fresh_instance) as [[p0|e] s0] eqn:Hpre;
    [|done].
  pose proof (parse_lines_section v _ _ _ _ _ Hpre) as Hp0.
  rewrite Hsec in Hp0. subst p0. simpl in Hrun. unfold bind in Hrun.
  destruct (_tables s0 !! dt) as [tp0|] eqn:Hdt.
  2:{ rewrite (parse_line_unknown_section v dt row s0) in Hrun; try done.
      by rewrite Htok. }
  rewrite (parse_line_store v dt row s0 major d k) in Hrun by eauto.
  apply (parse_lines_keeps_entry v post dt (stored dt k d s0) p s dt k d Hrun).
  - apply stored_last_wins. eauto.
  - intros mid row' post' major' d' -> Hmid.
    apply (Hno mid row' post' major' d' eq_refl).
    unfold section_after in *. rewrite fold_left_app. simpl.
    rewrite Hsec. unfold section_of.
    unfold is_blank in Hb. unfold is_header in Hh.
    apply orb_false_iff in Hh as [Hc Hbk]. by rewrite Hb, Hc, Hbk.
Qed.

(** The turn that raises does so on a line that [line_ok] refuses, with the
    exception that [line_error] names. *)
Lemma parse_line_raises p line s e s' :
  two_tables s →
  parse_line v p line s = (Raise e, s') →
  line_ok v p line = false ∧ e = line_error v p line.
Proof.
  intros Hs Hline. split.
  - destruct (line_ok v p line) eqn:Hok; [|done].
    apply (parse_line_returns_iff v p line s Hs) in Hok as (p' & s1 & Hret).
    by rewrite Hret in Hline.
  - pose proof (parse_line_turn v p line s) as Ht. rewrite Hline in Ht.
    simpl in Ht. pose proof (two_tables_section s p Hs) as Hsec.
    unfold line_error.
    inversion Ht as [| |Hb Hh Hl|Hb Hh Hl Hp|major device Hb Hh Hl Hp Hi|]; subst.
    + by destruct (tokens v line) as [|a [|b [|c l]]].
    + destruct (unpack2_Some _ Hl) as (major & device & -> & _).
      destruct (decide (p = NOTYPE)) as [->|Hne]; [done|].
      apply Hsec in Hne. rewrite Hp in Hne. by destruct Hne.
    + rewrite Hl. apply Hsec in Hp. by destruct (decide (p = NOTYPE)).
Qed.

End Atomic.

(** C9.  Once the file is open and has yielded its lines, the construction
    is all or nothing, and which of the two is read off the lines.  Either
    every line is one the loop takes (blank, header, or a row of two tokens
    inside a section whose first token [int] reads) and the caller gets an
    instance that is populated from the whole input: every row that no
    later row of its section overrides is in the table of its section under
    its key, and every entry of a table was stored for a row of the input.
    Or some line is the first that the loop does not take, and the caller
    gets the exception of that line, as [line_error] names it, and no
    instance: the result is an exception or an instance, never both, so
    the tables filled from the lines before the failure are not handed
    out. *)
Theorem C9_construction_all_or_nothing v lines :
  (∃ inst,
     ProcDev_new v lines = inr inst
     ∧ lines_ok v NOTYPE lines = true
     ∧ (∀ pre row post dt major k d,
          lines = pre ++ row :: post →
          section_after v NOTYPE pre = dt →
          is_blank v row = false → is_header v row = false →
          split v (rstrip v row) = [major; d] → int v major = Some k →
          (∀ mid row' post' major' d',
             post = mid ++ row' :: post' →
             section_after v NOTYPE (pre ++ row :: mid) = dt →
             is_blank v row' = false → is_header v row' = false →
             split v (rstrip v row') = [major'; d'] → int v major' ≠ Some k) →
          ∃ tp, _tables inst !! dt = Some tp ∧ left tp !! k = Some d)
     ∧ (∀ dt tp k d,
          _tables inst !! dt = Some tp → left tp !! k = Some d →
          ∃ line major,
            line ∈ lines ∧ is_blank v line = false ∧ is_header v line = false
            ∧ split v (rstrip v line) = [major; d] ∧ int v major = Some k))
  ∨ (∃ pre line post,
       lines = pre ++ line :: post
       ∧ lines_ok v NOTYPE pre = true
       ∧ line_ok v (section_after v NOTYPE pre) line = false
       ∧ ProcDev_new v lines
         = inl (line_error v (section_after v NOTYPE pre) line)).
Proof.
  rewrite ProcDev_new_parse_lines.
  destruct (parse_lines_cases v NOTYPE fresh_instance lines)
    as [(p & s & Hok & _)
       |(e & pre & line & post & p & s & s' & -> & Hpre & Hline & Hres)].
  - left. exists s. rewrite Hok. split; [done|]. split; [|split].
    + apply (parse_lines_returns_iff v NOTYPE lines fresh_instance);
        [apply fresh_two_tables|eauto].
    + intros pre row post dt major k d -> Hsec Hb Hh Htok Hi Hno.
      by apply (last_row_stored v pre row post p s dt major k d).
    + apply (parse_lines_entries_from v [] _ _ _ _ _ Hok), fresh_entries_from.
  - right. exists pre, line, post. split; [done|].
    pose proof (parse_lines_two_tables v _ _ _ _ _ Hpre fresh_two_tables) as Hs.
    pose proof (parse_lines_section v _ _ _ _ _ Hpre) as ->.
    destruct (parse_line_raises v _ _ _ _ _ Hs Hline) as [Hbad ->].
    split; [|split; [done|by rewrite Hres]].
    apply (parse_lines_returns_iff v NOTYPE pre fresh_instance);
      [apply fresh_two_tables|eauto].
Qed.
